(** * Session and request-authorization flow of the todo frontend

    A shallow embedding of the client code: the home page redirect
    (app/page.tsx), the todos page (app/todos/page.tsx), the header's
    logout handler (components/layout/Header.tsx) and the API client
    [apiRequest] as listed in the frontend README (lib/api.ts).

    Asynchronous functions are state transformers over a [World] holding
    local storage, the current location, a logical clock in milliseconds,
    the React state of the hooks and a trace of the platform calls made.
    A promise that never settles is [None]; a settled one is fulfilled
    with a value or rejected with an error. *)

From stdpp Require Import gmap strings list pretty.

Open Scope string_scope.

(** ** JavaScript values *)

Record JsError := mkError { err_name : string; err_message : string }.

#[local] Unset Elimination Schemes.
Inductive Json :=
| JNull
| JBool (b : bool)
| JNumber (n : Z)
| JString (s : string)
| JArray (items : list Json)
| JObject (fields : list (string * Json)).
#[local] Set Elimination Schemes.

(** An [AbortSignal]: either [AbortSignal.timeout(ms)] or the signal of an
    [AbortController] owned by the caller, which aborts after the given
    number of milliseconds, if ever. *)
Inductive Signal :=
| AbortTimeout (ms : N)
| ControllerSignal (abortAfter : option N).

(** The [RequestInit] object handed to [fetch]. [headers] is the plain
    object form of [HeadersInit]: a map from (case-sensitive) property
    names to values. *)
Record RequestInit := mkInit {
  method : option string;
  headers : gmap string string;
  body : option string;
  signal : option Signal
}.

(** How the remote end treats one request: it answers with a status line
    after [delay] ms and finishes the body [bodyDelay] ms later (the body
    is [None] when it is not valid JSON), or the connection fails after
    [delay] ms, or nothing ever comes back. *)
Inductive ServerBehaviour :=
| Responds (delay : N) (code : Z) (payload : option Json) (bodyDelay : N)
| Unreachable (delay : N)
| Hangs.

Record Response := mkResponse {
  status : Z;
  res_body : option Json;
  res_bodyAt : N;
  res_abort : option (N * JsError)
}.

Inductive Event :=
| EvGetItem (key : string)
| EvRemoveItem (key : string)
| EvFetch (url : string) (init : RequestInit)
| EvSetHref (url : string)
| EvRouterPush (path : string)
| EvConsoleError (label : string) (e : JsError).

(** ** Data model *)

Record User := mkUser { user_id : string; username : string; email : string }.

Record Task := mkTask {
  task_id : string;
  title : string;
  description : option string;
  completed : bool;
  createdAt : string
}.

(** What [useAuth()] hands to the components that destructure it. *)
Record AuthState := mkAuth {
  user : option User;
  isAuthenticated : bool;
  loading : bool
}.

(** What [useTasks()] hands to [TodosPage]. *)
Record TasksState := mkTasks {
  tasks : list Task;
  tasks_loading : bool;
  tasks_error : option string
}.

Record World := mkWorld {
  localStorage : gmap string string;
  location : string;
  clock : N;
  trace : list Event;
  auth : AuthState;
  todo : TasksState
}.

Definition set_localStorage (s : gmap string string) (w : World) : World :=
  mkWorld s (location w) (clock w) (trace w) (auth w) (todo w).

Definition set_location (l : string) (w : World) : World :=
  mkWorld (localStorage w) l (clock w) (trace w) (auth w) (todo w).

Definition set_clock (t : N) (w : World) : World :=
  mkWorld (localStorage w) (location w) t (trace w) (auth w) (todo w).

Definition set_auth (a : AuthState) (w : World) : World :=
  mkWorld (localStorage w) (location w) (clock w) (trace w) a (todo w).

Definition set_todo (t : TasksState) (w : World) : World :=
  mkWorld (localStorage w) (location w) (clock w) (trace w) (auth w) t.

Definition emit (e : Event) (w : World) : World :=
  mkWorld (localStorage w) (location w) (clock w) (trace w ++ [e]) (auth w) (todo w).

(** ** Promises *)

Inductive Settled (A : Type) :=
| Fulfilled (a : A)
| Rejected (e : JsError).
Arguments Fulfilled {A} a.
Arguments Rejected {A} e.

Definition Async (A : Type) : Type := World → option (Settled A * World).

Definition resolve {A} (a : A) : Async A := λ w, Some (Fulfilled a, w).

Definition throw {A} (e : JsError) : Async A := λ w, Some (Rejected e, w).

(** [await m] followed by [f]: a rejection of [m] skips [f], and nothing
    runs after a promise that never settles. *)
Definition await {A B} (f : A → Async B) (m : Async A) : Async B := λ w,
  match m w with
  | Some (Fulfilled a, w') => f a w'
  | Some (Rejected e, w') => Some (Rejected e, w')
  | None => None
  end.

#[global] Instance async_ret : MRet Async := @resolve.
#[global] Instance async_bind : MBind Async := @await.

(** [try { m } catch (error) { h error }] *)
Definition try_catch {A} (m : Async A) (h : JsError → Async A) : Async A := λ w,
  match m w with
  | Some (Rejected e, w') => h e w'
  | r => r
  end.

(** ** Platform calls *)

Definition is_fetch (e : Event) : bool :=
  match e with EvFetch _ _ => true | _ => false end.

Definition is_remove (key : string) (e : Event) : bool :=
  match e with EvRemoveItem k => bool_decide (k = key) | _ => false end.

Definition is_navigation (e : Event) : bool :=
  match e with EvSetHref _ | EvRouterPush _ => true | _ => false end.

Definition count_events (p : Event → bool) (l : list Event) : nat :=
  length (List.filter p l).

Definition TimeoutError : JsError := mkError "TimeoutError" "signal timed out".
Definition AbortError : JsError := mkError "AbortError" "signal is aborted without reason".
Definition NetworkError : JsError := mkError "TypeError" "Failed to fetch".
Definition SyntaxError : JsError := mkError "SyntaxError" "Unexpected token".

(** The instant at which a signal created at [now] aborts, with the error
    the pending operation is rejected with. *)
Definition deadline_of (now : N) (s : option Signal) : option (N * JsError) :=
  match s with
  | Some (AbortTimeout ms) => Some ((now + ms)%N, TimeoutError)
  | Some (ControllerSignal (Some n)) => Some ((now + n)%N, AbortError)
  | Some (ControllerSignal None) | None => None
  end.

Definition settles_before (t : N) (abort : option (N * JsError)) : bool :=
  match abort with
  | Some (d, _) => (t <? d)%N
  | None => true
  end.

(** An operation cut short by its signal; without a signal it stays
    pending for ever. *)
Definition aborted {A} (abort : option (N * JsError)) (w : World)
  : option (Settled A * World) :=
  match abort with
  | Some (d, e) => Some (Rejected e, set_clock (N.max (clock w) d) w)
  | None => None
  end.

Definition getItem (key : string) : Async (option string) := λ w,
  Some (Fulfilled (localStorage w !! key), emit (EvGetItem key) w).

Definition removeItem (key : string) : Async unit := λ w,
  Some (Fulfilled (), emit (EvRemoveItem key) (set_localStorage (delete key (localStorage w)) w)).

Definition setHref (url : string) : Async unit := λ w,
  Some (Fulfilled (), emit (EvSetHref url) (set_location url w)).

Definition routerPush (path : string) : Async unit := λ w,
  Some (Fulfilled (), emit (EvRouterPush path) (set_location path w)).

Definition consoleError (label : string) (e : JsError) : Async unit := λ w,
  Some (Fulfilled (), emit (EvConsoleError label e) w).

(** ** Sample data *)

Definition sample_base : string := "http://localhost:8001".

Definition no_options : RequestInit := mkInit None ∅ None None.

Definition sample_user : User := mkUser "1" "ada" "ada@example.com".

Definition sample_task : Task :=
  mkTask "t1" "Write report" None false "2024-01-01T00:00:00Z".

Definition signed_in : World :=
  mkWorld {[ "auth_token" := "abc"; "user" := "ada" ]} "/todos" 100 []
          (mkAuth (Some sample_user) true false) (mkTasks [sample_task] false None).

Definition signed_out : World :=
  mkWorld ∅ "/" 0 [] (mkAuth None false true) (mkTasks [] false None).

Definition error_body : Json := JObject [("detail", JString "Internal Server Error")].

(** A remote end that treats every request alike. *)
Definition always (srv : ServerBehaviour) : nat → string → RequestInit → ServerBehaviour :=
  λ _ _ _, srv.

Section Client.

(** The environment: the base URL of the API ([NEXT_PUBLIC_API_URL]) and
    the behaviour of the remote end for the n-th fetch of the session. *)
Variable API_BASE_URL : string.
Variable net : nat → string → RequestInit → ServerBehaviour.

(** [fetch(url, init)]: resolves with the response once the status line
    is in, rejects on a connection failure, and is rejected by the
    signal of [init] if that fires first. *)
Definition fetch (url : string) (init : RequestInit) : Async Response := λ w,
  let w1 := emit (EvFetch url init) w in
  let abort := deadline_of (clock w) (signal init) in
  match net (count_events is_fetch (trace w)) url init with
  | Responds delay code payload bodyDelay =>
      if settles_before (clock w + delay) abort
      then Some (Fulfilled (mkResponse code payload (clock w + delay + bodyDelay) abort),
                 set_clock (clock w + delay) w1)
      else aborted abort w1
  | Unreachable delay =>
      if settles_before (clock w + delay) abort
      then Some (Rejected NetworkError, set_clock (clock w + delay) w1)
      else aborted abort w1
  | Hangs => aborted abort w1
  end.

(** [response.json()]: reads the rest of the body, still under the
    signal of the request, and parses it. *)
Definition response_json (r : Response) : Async Json := λ w,
  let done := N.max (clock w) (res_bodyAt r) in
  if settles_before done (res_abort r)
  then match res_body r with
       | Some j => Some (Fulfilled j, set_clock done w)
       | None => Some (Rejected SyntaxError, set_clock done w)
       end
  else aborted (res_abort r) w.

(** ** The API client (README, "API client with JWT injection") *)

(** [...(token && { Authorization: `Bearer ${token}` })]: [null] and the
    empty string are falsy and spread to nothing. *)
Definition bearer (token : option string) : gmap string string :=
  match token with
  | Some t => if decide (t = "") then ∅ else {[ "Authorization" := "Bearer " +:+ t ]}
  | None => ∅
  end.

(** The object literal passed to [fetch]: the caller's options, then
    [headers] and [signal], which replace the caller's. In the headers a
    later spread wins, so the caller's entries take precedence over the
    bearer entry, which takes precedence over the content type. *)
Definition request_init (options : RequestInit) (token : option string) : RequestInit :=
  {| method := method options;
     body := body options;
     headers := headers options ∪ bearer token ∪ {[ "Content-Type" := "application/json" ]};
     signal := Some (AbortTimeout 5000) |}.

Definition apiRequest (endpoint : string) (options : RequestInit) : Async Json :=
  token ← getItem "auth_token";
  response ← fetch (API_BASE_URL +:+ endpoint) (request_init options token);
  if decide (status response = 401%Z) then
    removeItem "auth_token";;
    removeItem "user";;
    setHref "/login";;
    throw (mkError "Error" "Authentication required")
  else
    response_json response.

(** How the remote end treats the request that [apiRequest endpoint
    options] issues from world [w]. *)
Definition server_reply (endpoint : string) (options : RequestInit) (w : World)
  : ServerBehaviour :=
  net (count_events is_fetch (trace w)) (API_BASE_URL +:+ endpoint)
      (request_init options (localStorage w !! "auth_token")).

(** The world once [apiRequest] has read the token and called [fetch]. *)
Definition request_sent (endpoint : string) (options : RequestInit) (w : World) : World :=
  emit (EvFetch (API_BASE_URL +:+ endpoint)
                (request_init options (localStorage w !! "auth_token")))
       (emit (EvGetItem "auth_token") w).

(** The world [apiRequest] leaves behind on a 401 received [delay] ms
    after the call. *)
Definition session_cleared (endpoint : string) (options : RequestInit) (delay : N)
  (w : World) : World :=
  let w2 := set_clock (clock w + delay) (request_sent endpoint options w) in
  let w3 := emit (EvRemoveItem "auth_token")
                 (set_localStorage (delete "auth_token" (localStorage w2)) w2) in
  let w4 := emit (EvRemoveItem "user")
                 (set_localStorage (delete "user" (localStorage w3)) w3) in
  emit (EvSetHref "/login") (set_location "/login" w4).

(** No HTTP response reaches the client: the connection fails, nothing
    comes back, or the status line would only arrive once the timeout
    has fired. *)
Definition no_response (srv : ServerBehaviour) : Prop :=
  match srv with
  | Responds delay _ _ _ => (5000 ≤ delay)%N
  | Unreachable _ | Hangs => True
  end.

Definition with_signal (s : option Signal) (options : RequestInit) : RequestInit :=
  mkInit (method options) (headers options) (body options) s.

(** ** Header: the logout button (components/layout/Header.tsx) *)

(** [logout] is the function of that name returned by [useAuth()]. *)
Definition handleLogout (logout : Async unit) : Async unit :=
  try_catch
    (logout;;
     routerPush "/login")
    (λ error,
     consoleError "Logout error:" error;;
     routerPush "/login").

(** ** The session hook *)

Definition unauthenticated : AuthState := mkAuth None false false.

Definition setAuth (f : AuthState → AuthState) : Async unit := λ w,
  Some (Fulfilled (), set_auth (f (auth w)) w).

(** Modelled from the spec: [logout] of the [useAuth] hook, whose file
    (hooks/useAuth.ts) is not among the sources. It "best-effort notifies
    the server, then unconditionally clears persisted token and local
    state -- clearing proceeds even if the server call fails". The
    notification is [POST /api/auth/logout] through the API client. *)
Definition logout : Async unit :=
  try_catch
    (apiRequest "/api/auth/logout" (mkInit (Some "POST") ∅ None None);; mret ())
    (λ _, mret ());;
  removeItem "auth_token";;
  removeItem "user";;
  setAuth (λ _, unauthenticated).

(** Modelled from the spec: [restore] of the [useAuth] hook (not among the
    sources). It "reads persisted token at startup; if absent, state =
    unauthenticated; if present, optimistically treats it as valid
    pending first API confirmation". *)
Definition restore : Async unit :=
  token ← getItem "auth_token";
  match token with
  | None => setAuth (λ _, unauthenticated)
  | Some _ => setAuth (λ a, mkAuth (user a) true false)
  end.

(** ** Home page (app/page.tsx) *)

Definition HomePage_effect (a : AuthState) : Async unit :=
  if loading a then mret ()
  else if isAuthenticated a then routerPush "/todos"
  else routerPush "/login".

(** The dependency array of the effect; the router object is stable. *)
Definition HomePage_deps (a : AuthState) : bool * bool := (isAuthenticated a, loading a).

(** The effect runs after the first render and after every render in
    which a dependency differs from the previous render. *)
Fixpoint HomePage_renders (prev : option (bool * bool)) (snapshots : list AuthState)
  : Async unit :=
  match snapshots with
  | [] => mret ()
  | a :: rest =>
      (if decide (prev = Some (HomePage_deps a)) then mret () else HomePage_effect a);;
      HomePage_renders (Some (HomePage_deps a)) rest
  end.

Definition HomePage_visit (snapshots : list AuthState) : Async unit :=
  HomePage_renders None snapshots.

Definition destination (a : AuthState) : string :=
  if isAuthenticated a then "/todos" else "/login".

(** ** Todos page (app/todos/page.tsx) *)

#[local] Unset Elimination Schemes.
#[local] Set Elimination Schemes.








(** [handleToggleTask] awaits [toggleTask] of [useTasks()] and returns
    nothing. *)
Definition handleToggleTask {A} (toggleTask : string → Async A) (id : string) : Async unit :=
  toggleTask id;;
  mret ().

Definition toggle (t : Task) : Task :=
  mkTask (task_id t) (title t) (description t) (negb (completed t)) (createdAt t).

(** Modelled from the spec: [toggleTask] of the [useTasks] hook, which is
    not among the sources, together with the endpoint behind it
    ([PATCH /api/tasks/{id}/toggle], "toggle completion": "mark it as
    complete/incomplete"). The task with the given id has its completion
    flag flipped in the cached list; every other task is left alone. *)
Definition toggleTask (id : string) : Async unit := λ w,
  Some (Fulfilled (),
        set_todo (mkTasks ((λ t, if decide (task_id t = id) then toggle t else t) <$> tasks (todo w))
                          (tasks_loading (todo w)) (tasks_error (todo w))) w).

(** ** The forms of [options.headers] *)

(** [options.headers] has the type [HeadersInit]: it may be left out, a
    plain object, a [Headers] instance or an array of [name, value]
    pairs. *)
Inductive HeadersInit :=
| HeadersUndefined
| HeadersRecord (props : gmap string string)
| HeadersObject (entries : list (string * string))
| HeadersPairs (pairs : list (string * string)).

(** [...options.headers]: the own enumerable properties the spread
    copies. A plain object gives its properties under their own,
    case-sensitive, names; [undefined] and a [Headers] instance give
    none; an array gives one property per index, named by the index and
    holding the pair, which [fetch] reads as the text "name,value". *)
Definition spread (h : HeadersInit) : gmap string string :=
  match h with
  | HeadersUndefined => ∅
  | HeadersRecord props => props
  | HeadersObject _ => ∅
  | HeadersPairs pairs =>
      list_to_map (imap (λ (i : nat) (p : string * string), (pretty i, p.1 +:+ "," +:+ p.2)) pairs)
  end.

(** The [options] argument as the caller writes it. *)
Record Options := mkOptions {
  opt_method : option string;
  opt_headers : HeadersInit;
  opt_body : option string;
  opt_signal : option Signal
}.

Definition init_of (o : Options) : RequestInit :=
  mkInit (opt_method o) (spread (opt_headers o)) (opt_body o) (opt_signal o).

(** The remote end is too slow for the 5000 ms signal: nothing comes
    back, or the status line or the body of a response that is not a 401
    would only be complete once the signal has fired. *)
Definition times_out (srv : ServerBehaviour) : Prop :=
  match srv with
  | Responds delay code _ bodyDelay =>
      (5000 ≤ delay)%N ∨ (code ≠ 401%Z ∧ (5000 ≤ delay + bodyDelay)%N)
  | Unreachable delay => (5000 ≤ delay)%N
  | Hangs => True
  end.

(** The most recent render of a visit in which the hook had finished
    loading. *)
Definition last_loaded (snapshots : list AuthState) : option AuthState :=
  last (List.filter (λ a, negb (loading a)) snapshots).

(** ** Header: what it renders (components/layout/Header.tsx) *)

Inductive HeaderItem :=
| TitleLink (text href : string)
| ThemeToggleEl
| UserInfo (caption name : string)
| LogoutButton.

(** The title link, followed by the block guarded by
    [isAuthenticated && user]. *)
Definition Header (a : AuthState) : list HeaderItem :=
  TitleLink "Todo App" "/todos" ::
  (if isAuthenticated a then
     match user a with
     | Some u => [ThemeToggleEl; UserInfo "Logged in as" (username u); LogoutButton]
     | None => []
     end
   else []).

(** * Properties *)

Lemma count_events_app p l1 l2 :
  count_events p (l1 ++ l2) = count_events p l1 + count_events p l2.
Proof. unfold count_events. by rewrite List.filter_app, length_app. Qed.

Lemma count_fetch_getItem key w :
  count_events is_fetch (trace (emit (EvGetItem key) w)) = count_events is_fetch (trace w).
Proof. simpl. rewrite count_events_app. unfold count_events at 2. simpl. lia. Qed.

(** [apiRequest] in closed form, by cases on what comes back. *)
Lemma apiRequest_cases endpoint options w :
  apiRequest endpoint options w =
  let w2 := request_sent endpoint options w in
  let abort := Some ((clock w + 5000)%N, TimeoutError) in
  match server_reply endpoint options w with
  | Responds delay code payload bodyDelay =>
      if (clock w + delay <? clock w + 5000)%N then
        if decide (code = 401%Z)
        then Some (Rejected (mkError "Error" "Authentication required"),
                   session_cleared endpoint options delay w)
        else response_json (mkResponse code payload (clock w + delay + bodyDelay) abort)
                           (set_clock (clock w + delay) w2)
      else aborted abort w2
  | Unreachable delay =>
      if (clock w + delay <? clock w + 5000)%N
      then Some (Rejected NetworkError, set_clock (clock w + delay) w2)
      else aborted abort w2
  | Hangs => aborted abort w2
  end.
Proof.
  unfold apiRequest, server_reply, request_sent, session_cleared.
  unfold mbind, async_bind, await, getItem, fetch.
  rewrite count_fetch_getItem. simpl.
  destruct (net _ _ _) as [delay code payload bodyDelay|delay|]; simpl; try done.
  - destruct (_ <? _)%N; simpl; [|done].
    destruct (decide (code = 401%Z)); done.
  - by destruct (_ <? _)%N.
Qed.

Lemma count_events_snoc p l e :
  count_events p (l ++ [e]) = count_events p l + (if p e then 1 else 0).
Proof. rewrite count_events_app. unfold count_events. simpl. by destruct (p e). Qed.

Lemma ltb_plus_l (a m n : N) : (a + m <? a + n)%N = (m <? n)%N.
Proof.
  destruct (N.ltb_spec m n); [apply N.ltb_lt | apply N.ltb_ge]; lia.
Qed.

(** C1: a request answered with status 401 rejects with "Authentication
    required"; the stored token (and the stored user) is removed, by
    exactly one [removeItem('auth_token')]; the location becomes /login;
    and exactly one [fetch] was issued, so the request is not
    re-attempted. *)
Theorem apiRequest_unauthorized endpoint options w delay payload bodyDelay :
  server_reply endpoint options w = Responds delay 401 payload bodyDelay →
  (delay < 5000)%N →
  ∃ w',
    apiRequest endpoint options w
      = Some (Rejected (mkError "Error" "Authentication required"), w')
    ∧ localStorage w' = delete "user" (delete "auth_token" (localStorage w))
    ∧ localStorage w' !! "auth_token" = None
    ∧ location w' = "/login"
    ∧ trace w' = (trace w ++
        [EvGetItem "auth_token";
         EvFetch (API_BASE_URL +:+ endpoint)
                 (request_init options (localStorage w !! "auth_token"));
         EvRemoveItem "auth_token"; EvRemoveItem "user"; EvSetHref "/login"])%list
    ∧ count_events (is_remove "auth_token") (trace w')
        = count_events (is_remove "auth_token") (trace w) + 1
    ∧ count_events is_fetch (trace w') = count_events is_fetch (trace w) + 1.
Proof.
  intros Hreply Hdelay.
  exists (session_cleared endpoint options delay w).
  rewrite apiRequest_cases, Hreply. simpl.
  rewrite ltb_plus_l. apply N.ltb_lt in Hdelay. rewrite Hdelay.
  split; [done|]. split; [done|].
  split; [simpl; rewrite lookup_delete_ne by done; apply lookup_delete_eq|].
  split; [done|].
  split; [simpl; by rewrite <- !app_assoc|].
  simpl. rewrite !count_events_snoc. simpl. split; lia.
Qed.

(** C3: when no HTTP response is received (connection failure, or the
    timeout fires first), the call rejects with the network or timeout
    error and local storage, the hook state and the location are as
    before; nothing was removed from storage. *)
Theorem apiRequest_network_failure endpoint options w :
  no_response (server_reply endpoint options w) →
  ∃ e w',
    apiRequest endpoint options w = Some (Rejected e, w')
    ∧ (e = NetworkError ∨ e = TimeoutError)
    ∧ localStorage w' = localStorage w
    ∧ auth w' = auth w
    ∧ todo w' = todo w
    ∧ location w' = location w
    ∧ trace w' = trace (request_sent endpoint options w).
Proof.
  intros Hno. rewrite apiRequest_cases. simpl.
  destruct (server_reply endpoint options w) as [delay code payload bodyDelay|delay|];
    simpl in Hno; rewrite ?ltb_plus_l.
  - apply N.ltb_ge in Hno. rewrite Hno. eexists _, _. split; [done|]. naive_solver.
  - destruct (delay <? 5000)%N; eexists _, _; (split; [done|]); naive_solver.
  - eexists _, _. split; [done|]. naive_solver.
Qed.

(** C4 (as the code has it): the status of a response is compared with
    401 only. For any other status, once the body is in before the
    timeout, the call settles with the outcome of [response.json()]: the
    parsed body is the fulfilled result, also for 400, 403, 404 or 500,
    and the call rejects only when the body is not valid JSON. The session
    is left as it was. *)
Theorem apiRequest_other_status endpoint options w delay code payload bodyDelay :
  server_reply endpoint options w = Responds delay code payload bodyDelay →
  code ≠ 401%Z →
  (delay + bodyDelay < 5000)%N →
  ∃ w',
    apiRequest endpoint options w
      = Some (match payload with
              | Some j => Fulfilled j
              | None => Rejected SyntaxError
              end, w')
    ∧ localStorage w' = localStorage w
    ∧ auth w' = auth w
    ∧ location w' = location w
    ∧ trace w' = trace (request_sent endpoint options w).
Proof.
  intros Hreply Hcode Hdelay.
  rewrite apiRequest_cases, Hreply. simpl. rewrite ltb_plus_l.
  assert ((delay <? 5000)%N = true) as -> by (apply N.ltb_lt; lia).
  destruct (decide (code = 401%Z)) as [|_]; [done|].
  unfold response_json. simpl.
  assert ((N.max (clock w + delay) (clock w + delay + bodyDelay) <? clock w + 5000)%N = true)
    as -> by (apply N.ltb_lt; lia).
  destruct payload; eexists; (split; [done|]); done.
Qed.

(** Every call settles, within the timeout, after one [fetch]. *)
Lemma apiRequest_settles endpoint options w :
  ∃ r w' rest,
    apiRequest endpoint options w = Some (r, w')
    ∧ (clock w ≤ clock w' ≤ clock w + 5000)%N
    ∧ trace w' = (trace (request_sent endpoint options w) ++ rest)%list
    ∧ count_events is_fetch rest = 0.
Proof.
  rewrite apiRequest_cases. simpl.
  destruct (server_reply endpoint options w) as [delay code payload bodyDelay|delay|];
    rewrite ?ltb_plus_l.
  - destruct (N.ltb_spec delay 5000) as [Hlt|Hge].
    + destruct (decide (code = 401%Z)) as [_|_].
      * eexists _, _, [EvRemoveItem "auth_token"; EvRemoveItem "user"; EvSetHref "/login"].
        split; [done|]. simpl. rewrite <- !app_assoc. split; [lia|done].
      * unfold response_json. simpl.
        destruct (N.ltb_spec (N.max (clock w + delay) (clock w + delay + bodyDelay))
                             (clock w + 5000)) as [Hb|Hb].
        -- destruct payload; eexists _, _, []; (split; [done|]); simpl;
             rewrite app_nil_r; (split; [lia|done]).
        -- eexists _, _, []. split; [done|]. simpl. rewrite app_nil_r. split; [lia|done].
    + eexists _, _, []. split; [done|]. simpl. rewrite app_nil_r. split; [lia|done].
  - destruct (N.ltb_spec delay 5000) as [Hlt|Hge];
      eexists _, _, []; (split; [done|]); simpl; rewrite app_nil_r; (split; [lia|done]).
  - eexists _, _, []. split; [done|]. simpl. rewrite app_nil_r. split; [lia|done].
Qed.

Lemma request_init_authorization options tok :
  headers (request_init options tok) !! "Authorization" =
  match headers options !! "Authorization" with
  | Some v => Some v
  | None => match tok with
            | Some t => if decide (t = "") then None else Some ("Bearer " +:+ t)
            | None => None
            end
  end.
Proof.
  simpl. rewrite !lookup_union.
  destruct (headers options !! "Authorization") as [v|]; simpl.
  - by destruct (bearer tok !! "Authorization").
  - unfold bearer. destruct tok as [t|]; [destruct (decide (t = ""))|];
      rewrite ?lookup_singleton_eq, ?lookup_empty, ?lookup_singleton_ne by done; done.
Qed.

(** C5 (as the code has it): when the caller's own headers have no
    [Authorization] entry, the single request sent carries
    [Authorization: Bearer <token>] for a non-empty stored token, and no
    [Authorization] header when no token, or an empty one, is stored. *)
Theorem apiRequest_authorization endpoint options w :
  headers options !! "Authorization" = None →
  ∃ r w' init rest,
    apiRequest endpoint options w = Some (r, w')
    ∧ trace w' = (trace w ++ EvGetItem "auth_token"
                           :: EvFetch (API_BASE_URL +:+ endpoint) init :: rest)%list
    ∧ count_events is_fetch rest = 0
    ∧ (∀ t, localStorage w !! "auth_token" = Some t → t ≠ "" →
            headers init !! "Authorization" = Some ("Bearer " +:+ t))
    ∧ (localStorage w !! "auth_token" = None ∨ localStorage w !! "auth_token" = Some "" →
       headers init !! "Authorization" = None).
Proof.
  intros Hcaller.
  destruct (apiRequest_settles endpoint options w) as (r & w' & rest & Heq & _ & Htrace & Hrest).
  exists r, w', (request_init options (localStorage w !! "auth_token")), rest.
  split; [done|]. split; [rewrite Htrace; simpl; by rewrite <- !app_assoc|].
  split; [done|].
  rewrite request_init_authorization, Hcaller.
  split.
  - intros t -> Ht. by destruct (decide (t = "")).
  - by intros [->| ->].
Qed.

(** C6: every call settles, at most 5000 ms after it was made, whatever
    the remote end does; its single [fetch] carries
    [AbortSignal.timeout(5000)], and a signal passed by the caller is
    replaced by it, so the caller has no means to cancel. *)
Theorem apiRequest_timeout endpoint options w :
  ∃ r w' rest,
    apiRequest endpoint options w = Some (r, w')
    ∧ (clock w ≤ clock w' ≤ clock w + 5000)%N
    ∧ trace w' = (trace w ++ EvGetItem "auth_token"
                    :: EvFetch (API_BASE_URL +:+ endpoint)
                         (request_init options (localStorage w !! "auth_token"))
                    :: rest)%list
    ∧ count_events is_fetch rest = 0
    ∧ (∀ s tok, signal (request_init (with_signal s options) tok) = Some (AbortTimeout 5000))
    ∧ (∀ s, apiRequest endpoint (with_signal s options) w = apiRequest endpoint options w).
Proof.
  destruct (apiRequest_settles endpoint options w) as (r & w' & rest & Heq & Hclock & Htrace & Hrest).
  exists r, w', rest.
  split; [done|]. split; [done|].
  split; [rewrite Htrace; simpl; by rewrite <- !app_assoc|].
  split; [done|]. split; [done|].
  intros s. by rewrite !apiRequest_cases.
Qed.

(** Without a signal a request to a silent server stays pending. *)
Lemma fetch_without_signal_hangs url init w :
  signal init = None →
  net (count_events is_fetch (trace w)) url init = Hangs →
  fetch url init w = None.
Proof. intros Hs Hn. unfold fetch. by rewrite Hn, Hs. Qed.

(** Whatever [logout] does, the handler ends on /login, after one
    navigation of its own. *)
Lemma handleLogout_redirects (lg : Async unit) w r w1 :
  lg w = Some (r, w1) →
  ∃ w',
    handleLogout lg w = Some (Fulfilled (), w')
    ∧ location w' = "/login"
    ∧ localStorage w' = localStorage w1
    ∧ auth w' = auth w1
    ∧ count_events is_navigation (trace w') = count_events is_navigation (trace w1) + 1.
Proof.
  intros Hlg. unfold handleLogout, try_catch, mbind, async_bind, await.
  rewrite Hlg. destruct r as [[]|e]; simpl; eexists; (split; [done|]); simpl;
    rewrite !count_events_snoc; simpl; repeat split; lia.
Qed.

Lemma logout_clears w :
  ∃ w1,
    logout w = Some (Fulfilled (), w1)
    ∧ localStorage w1 !! "auth_token" = None
    ∧ localStorage w1 !! "user" = None
    ∧ auth w1 = unauthenticated.
Proof.
  destruct (apiRequest_settles "/api/auth/logout" (mkInit (Some "POST") ∅ None None) w)
    as (r & w' & rest & Heq & _).
  unfold logout, try_catch, mbind, async_bind, await.
  rewrite Heq. destruct r; simpl; eexists; (split; [done|]); simpl;
    rewrite lookup_delete_eq, lookup_delete_ne, lookup_delete_eq by done; done.
Qed.

(** C2: the logout handler always completes; afterwards the stored token
    and user are gone, the hook state is the unauthenticated one and the
    location is /login, whatever the server did with the logout call
    (answered, refused, unreachable or silent). *)
Theorem handleLogout_clears_session w :
  ∃ w',
    handleLogout logout w = Some (Fulfilled (), w')
    ∧ localStorage w' !! "auth_token" = None
    ∧ localStorage w' !! "user" = None
    ∧ auth w' = unauthenticated
    ∧ location w' = "/login".
Proof.
  destruct (logout_clears w) as (w1 & Hlg & Htok & Husr & Hauth).
  destruct (handleLogout_redirects logout w _ _ Hlg) as (w' & Heq & Hloc & Hls & Ha & _).
  exists w'. rewrite Hls, Ha. done.
Qed.

(** C7: [restore] always completes without calling the API; with no
    stored token the hook state is the unauthenticated one, with a stored
    token it is authenticated. Storage is only read. *)
Theorem restore_state w :
  ∃ w',
    restore w = Some (Fulfilled (), w')
    ∧ (localStorage w !! "auth_token" = None → auth w' = unauthenticated)
    ∧ (is_Some (localStorage w !! "auth_token") →
       isAuthenticated (auth w') = true ∧ loading (auth w') = false)
    ∧ count_events is_fetch (trace w') = count_events is_fetch (trace w)
    ∧ localStorage w' = localStorage w.
Proof.
  unfold restore, mbind, async_bind, await, getItem.
  destruct (localStorage w !! "auth_token") as [t|] eqn:Htok; simpl;
    eexists; (split; [done|]); simpl; rewrite count_events_snoc; simpl.
  - split; [done|]. split; [done|]. split; [lia|done].
  - split; [done|]. split; [|split; [lia|done]].
    intros [t Ht]. discriminate Ht.
Qed.

Lemma toggle_toggle t : toggle (toggle t) = t.
Proof. destruct t. unfold toggle. simpl. by rewrite negb_involutive. Qed.

Lemma toggle_by_id_twice id (l : list Task) :
  (λ t, if decide (task_id t = id) then toggle t else t) <$>
    ((λ t, if decide (task_id t = id) then toggle t else t) <$> l) = l.
Proof.
  induction l as [|t l IH]; [done|].
  rewrite !fmap_cons, IH. f_equal.
  destruct (decide (task_id t = id)) as [Hid|Hid].
  - assert (task_id (toggle t) = id) as Hid' by done.
    destruct (decide (task_id (toggle t) = id)); [apply toggle_toggle | done].
  - by destruct (decide (task_id t = id)).
Qed.

(** C8: toggling a task flips its completion flag and nothing else, and
    toggling the same task a second time gives back the task list, hence
    every completion flag, as it was before the first toggle. *)
Theorem toggle_twice id w :
  ∃ w1 w2,
    handleToggleTask toggleTask id w = Some (Fulfilled (), w1)
    ∧ handleToggleTask toggleTask id w1 = Some (Fulfilled (), w2)
    ∧ completed <$> tasks (todo w1)
      = (λ t, if decide (task_id t = id) then negb (completed t) else completed t)
          <$> tasks (todo w)
    ∧ tasks (todo w2) = tasks (todo w)
    ∧ completed <$> tasks (todo w2) = completed <$> tasks (todo w).
Proof.
  unfold handleToggleTask, toggleTask, mbind, async_bind, await. simpl.
  eexists _, _. split; [done|]. split; [done|]. simpl.
  rewrite toggle_by_id_twice. split; [|done].
  rewrite <- list_fmap_compose. apply list_fmap_ext. intros _ t _. simpl.
  by destruct (decide (task_id t = id)).
Qed.

(** What a settled call can have done to the world. *)
Lemma apiRequest_frame endpoint options w r w' :
  apiRequest endpoint options w = Some (r, w') →
  (localStorage w' = localStorage w ∧ location w' = location w
   ∧ auth w' = auth w ∧ todo w' = todo w
   ∧ trace w' = trace (request_sent endpoint options w)
   ∧ (clock w ≤ clock w')%N)
  ∨ (∃ delay payload bodyDelay,
       server_reply endpoint options w = Responds delay 401 payload bodyDelay
       ∧ (delay < 5000)%N
       ∧ r = Rejected (mkError "Error" "Authentication required")
       ∧ w' = session_cleared endpoint options delay w).
Proof.
  rewrite apiRequest_cases. simpl.
  destruct (server_reply endpoint options w) as [delay code payload bodyDelay|delay|];
    rewrite ?ltb_plus_l.
  - destruct (N.ltb_spec delay 5000) as [Hlt|Hge].
    + destruct (decide (code = 401%Z)) as [->|_].
      * intros [= <- <-]. right. by exists delay, payload, bodyDelay.
      * unfold response_json. simpl.
        destruct (N.max (clock w + delay) (clock w + delay + bodyDelay) <? clock w + 5000)%N.
        -- destruct payload; intros [= <- <-]; left; simpl; repeat split; lia.
        -- intros [= <- <-]. left. simpl. repeat split; lia.
    + intros [= <- <-]. left. simpl. repeat split; lia.
  - destruct (delay <? 5000)%N; intros [= <- <-]; left; simpl; repeat split; lia.
  - intros [= <- <-]. left. simpl. repeat split; lia.
Qed.



Lemma HomePage_renders_same a k w :
  HomePage_renders (Some (HomePage_deps a)) (replicate k a) w = Some (Fulfilled (), w).
Proof.
  induction k as [|k IH]; [done|].
  simpl. unfold mbind, async_bind, await.
  destruct (decide (Some (HomePage_deps a) = Some (HomePage_deps a))); [|done].
  simpl. apply IH.
Qed.

Lemma HomePage_effect_loaded a w :
  loading a = false →
  HomePage_effect a w
  = Some (Fulfilled (), emit (EvRouterPush (destination a)) (set_location (destination a) w)).
Proof.
  intros Hl. unfold HomePage_effect, destination. rewrite Hl.
  by destruct (isAuthenticated a).
Qed.

Lemma HomePage_renders_pending prev pending a k w :
  (prev = None ∨ ∃ b, prev = Some (b, true)) →
  Forall (λ s, loading s = true) pending →
  loading a = false →
  HomePage_renders prev (pending ++ replicate (S k) a) w
  = Some (Fulfilled (), emit (EvRouterPush (destination a)) (set_location (destination a) w)).
Proof.
  intros Hprev Hpending Ha. revert prev Hprev.
  induction Hpending as [|s pending Hs _ IH]; intros prev Hprev.
  - simpl. unfold mbind, async_bind, await.
    destruct (decide (prev = Some (HomePage_deps a))) as [Heq|_].
    { unfold HomePage_deps in Heq. rewrite Ha in Heq.
      destruct Hprev as [->|[b ->]]; done. }
    rewrite (HomePage_effect_loaded a w Ha). apply HomePage_renders_same.
  - simpl. unfold mbind, async_bind, await.
    assert ((if decide (prev = Some (HomePage_deps s)) then mret () else HomePage_effect s) w
            = Some (Fulfilled (), w)) as ->.
    { destruct (decide _); [done|]. unfold HomePage_effect. by rewrite Hs. }
    apply IH. right. exists (isAuthenticated s). unfold HomePage_deps. by rewrite Hs.
Qed.

(** C10: while the hook is loading the home page effect does nothing; once
    loading is over it pushes one route, /todos when authenticated and
    /login otherwise; and over a visit whose renders are loading until
    the state is known, that push is the only navigation. *)
Theorem HomePage_redirect a w :
  (loading a = true → HomePage_effect a w = Some (Fulfilled (), w))
  ∧ (loading a = false →
     HomePage_effect a w
     = Some (Fulfilled (),
             emit (EvRouterPush (if isAuthenticated a then "/todos" else "/login"))
                  (set_location (if isAuthenticated a then "/todos" else "/login") w)))
  ∧ (∀ pending k,
       Forall (λ s, loading s = true) pending →
       loading a = false →
       HomePage_visit (pending ++ replicate (S k) a) w
       = Some (Fulfilled (),
               emit (EvRouterPush (if isAuthenticated a then "/todos" else "/login"))
                    (set_location (if isAuthenticated a then "/todos" else "/login") w))).
Proof.
  split; [|split].
  - intros Hl. unfold HomePage_effect. by rewrite Hl.
  - apply HomePage_effect_loaded.
  - intros pending k Hp Ha. apply HomePage_renders_pending; auto.
Qed.

(** ** Further properties of the logout handler *)

(** X1: the logout handler settles exactly when [logout] does, and then
    it is always fulfilled, whether [logout] was fulfilled or rejected;
    it ends on /login and leaves storage, hook state and clock as
    [logout] left them. *)
Theorem handleLogout_never_rejects (lg : Async unit) w :
  match lg w with
  | None => handleLogout lg w = None
  | Some (r, w1) =>
      ∃ w',
        handleLogout lg w = Some (Fulfilled (), w')
        ∧ location w' = "/login"
        ∧ localStorage w' = localStorage w1
        ∧ auth w' = auth w1
        ∧ todo w' = todo w1
        ∧ clock w' = clock w1
  end.
Proof.
  unfold handleLogout, try_catch, mbind, async_bind, await.
  destruct (lg w) as [[[[]|e] w1]|]; simpl; [| |done]; eexists; (split; [done|]); done.
Qed.

(** X2: the handler reports to the console exactly when [logout] was
    rejected, once, with the label "Logout error:" and the error itself,
    and then pushes /login; after a fulfilled [logout] the push is all it
    does. *)
Theorem handleLogout_trace (lg : Async unit) w r w1 :
  lg w = Some (r, w1) →
  ∃ w',
    handleLogout lg w = Some (Fulfilled (), w')
    ∧ trace w' = (trace w1
                  ++ match r with
                     | Fulfilled _ => []
                     | Rejected e => [EvConsoleError "Logout error:" e]
                     end
                  ++ [EvRouterPush "/login"])%list.
Proof.
  intros Hlg. unfold handleLogout, try_catch, mbind, async_bind, await.
  rewrite Hlg. destruct r as [[]|e]; simpl; eexists; (split; [done|]); simpl;
    by rewrite <- ?app_assoc.
Qed.

(** ** Further properties of the API client *)

Lemma bearer_lookup_ne tok k : k ≠ "Authorization" → bearer tok !! k = None.
Proof.
  intros Hk. unfold bearer. destruct tok as [t|]; [|done].
  destruct (decide (t = "")); [done|]. by rewrite lookup_singleton_ne.
Qed.

Lemma request_init_headers options tok :
  (∀ k v, headers options !! k = Some v → headers (request_init options tok) !! k = Some v)
  ∧ (headers options !! "Content-Type" = None →
     headers (request_init options tok) !! "Content-Type" = Some "application/json")
  ∧ (∀ k, k ≠ "Authorization" → k ≠ "Content-Type" →
          headers (request_init options tok) !! k = headers options !! k).
Proof.
  simpl. split; [|split].
  - intros k v Hk. rewrite !lookup_union, Hk.
    by destruct (bearer _ !! k), ({[ "Content-Type" := "application/json" ]} !! k).
  - intros Hct. rewrite !lookup_union, Hct, bearer_lookup_ne by done.
    by rewrite lookup_singleton_eq.
  - intros k Ha Hc. rewrite !lookup_union, bearer_lookup_ne by done.
    rewrite lookup_singleton_ne by done. by destruct (headers options !! k).
Qed.

(** The properties an array of pairs spreads to: one per index. *)
Lemma spread_pairs_elem pairs k x :
  spread (HeadersPairs pairs) !! k = Some x
  ↔ ∃ i p, pairs !! i = Some p ∧ k = pretty i ∧ x = p.1 +:+ "," +:+ p.2.
Proof.
  simpl. rewrite <- elem_of_list_to_map.
  - rewrite elem_of_lookup_imap. split.
    + intros (i & p & [= -> ->] & Hp). by exists i, p.
    + intros (i & p & Hp & -> & ->). by exists i, p.
  - rewrite fmap_imap.
    rewrite (imap_ext _ (λ i _, pretty i)) by done.
    rewrite imap_seq_0. apply NoDup_fmap_2; [apply _|apply NoDup_seq].
Qed.

(** X4: the headers object handed to [fetch] is the literal built from
    the content type, the bearer entry and the spread of
    [options.headers], in that order; method and body are the caller's.
    For a plain object every property of the caller is in the literal
    under its own, case-sensitive, name with the caller's value, and the
    default content type is there only if the caller has no property
    named exactly "Content-Type". When [options.headers] is left out or
    is a [Headers] instance the spread gives nothing: the literal holds
    only the client's own content type and bearer entries, and the
    headers of the instance are dropped. For an array of pairs the
    literal holds properties named by the indices of the array, not by
    the caller's header names. *)
Theorem apiRequest_caller_options endpoint (o : Options) w :
  ∃ r w' init rest,
    apiRequest endpoint (init_of o) w = Some (r, w')
    ∧ trace w' = (trace w ++ EvGetItem "auth_token"
                    :: EvFetch (API_BASE_URL +:+ endpoint) init :: rest)%list
    ∧ method init = opt_method o
    ∧ body init = opt_body o
    ∧ (∀ props, opt_headers o = HeadersRecord props →
         (∀ k v, props !! k = Some v → headers init !! k = Some v)
         ∧ (props !! "Content-Type" = None →
            headers init !! "Content-Type" = Some "application/json")
         ∧ (∀ k, k ≠ "Authorization" → k ≠ "Content-Type" →
                 headers init !! k = props !! k))
    ∧ (opt_headers o = HeadersUndefined ∨ (∃ entries, opt_headers o = HeadersObject entries) →
       headers init = bearer (localStorage w !! "auth_token")
                      ∪ {[ "Content-Type" := "application/json" ]})
    ∧ (∀ pairs, opt_headers o = HeadersPairs pairs →
         (∀ i p, pairs !! i = Some p →
                 headers init !! pretty i = Some (p.1 +:+ "," +:+ p.2))
         ∧ (∀ k x, headers init !! k = Some x →
                   k = "Authorization" ∨ k = "Content-Type"
                   ∨ ∃ i p, pairs !! i = Some p ∧ k = pretty i ∧ x = p.1 +:+ "," +:+ p.2)).
Proof.
  destruct (apiRequest_settles endpoint (init_of o) w) as (r & w' & rest & Heq & _ & Htrace & _).
  exists r, w', (request_init (init_of o) (localStorage w !! "auth_token")), rest.
  split; [done|]. split; [rewrite Htrace; simpl; by rewrite <- !app_assoc|].
  split; [done|]. split; [done|]. split; [|split].
  - intros props Ho.
    pose proof (request_init_headers (init_of o) (localStorage w !! "auth_token")) as Hh.
    unfold init_of in Hh. rewrite Ho in Hh. unfold init_of. rewrite Ho. exact Hh.
  - intros Ho. simpl.
    assert (spread (opt_headers o) = ∅) as -> by (destruct Ho as [->|[entries ->]]; done).
    by rewrite (left_id_L ∅ (∪)).
  - intros pairs Ho. simpl. rewrite Ho. split.
    + intros i p Hp. rewrite <- (assoc_L (∪)). apply lookup_union_Some_l.
      apply spread_pairs_elem. by exists i, p.
    + intros k x Hk. destruct (decide (k = "Authorization")) as [|Ha]; [by left|].
      destruct (decide (k = "Content-Type")) as [|Hc]; [by right; left|].
      right; right. apply spread_pairs_elem.
      rewrite !lookup_union, bearer_lookup_ne in Hk by done.
      rewrite lookup_singleton_ne in Hk by done.
      by destruct (spread (HeadersPairs pairs) !! k).
Qed.

(** X5: on a 401 the client acts as soon as the status line is in,
    without reading the body; it removes the two keys "auth_token" and
    "user", so that neither is stored afterwards, and no other entry of
    local storage; it leaves the React state of the hooks as it was; and
    with neither key stored the storage is unchanged. *)
Theorem apiRequest_unauthorized_frame endpoint options w delay payload bodyDelay :
  server_reply endpoint options w = Responds delay 401 payload bodyDelay →
  (delay < 5000)%N →
  ∃ w',
    apiRequest endpoint options w
      = Some (Rejected (mkError "Error" "Authentication required"), w')
    ∧ clock w' = (clock w + delay)%N
    ∧ localStorage w' = delete "user" (delete "auth_token" (localStorage w))
    ∧ localStorage w' !! "auth_token" = None
    ∧ localStorage w' !! "user" = None
    ∧ (∀ k, k ≠ "auth_token" → k ≠ "user" → localStorage w' !! k = localStorage w !! k)
    ∧ auth w' = auth w
    ∧ todo w' = todo w
    ∧ (localStorage w !! "auth_token" = None → localStorage w !! "user" = None →
       localStorage w' = localStorage w).
Proof.
  intros Hreply Hdelay. rewrite apiRequest_cases, Hreply. simpl.
  rewrite ltb_plus_l. apply N.ltb_lt in Hdelay. rewrite Hdelay.
  eexists. split; [done|]. simpl. split; [done|]. split; [done|].
  split; [rewrite lookup_delete_ne by done; apply lookup_delete_eq|].
  split; [apply lookup_delete_eq|]. split; [|split; [done|split; [done|]]].
  - intros k Ht Hu. by rewrite !lookup_delete_ne.
  - intros Ht Hu. rewrite (delete_id _ "auth_token") by done. by apply delete_id.
Qed.

(** X6: a call that settles never adds or changes an entry of local
    storage and never touches the React state of the hooks; and it changes
    storage or location only if the server answered 401 in time, in
    which case it rejected with "Authentication required". *)
Theorem apiRequest_clears_only_on_401 endpoint options w r w' :
  apiRequest endpoint options w = Some (r, w') →
  localStorage w' ⊆ localStorage w
  ∧ auth w' = auth w
  ∧ todo w' = todo w
  ∧ (localStorage w' ≠ localStorage w ∨ location w' ≠ location w →
     ∃ delay payload bodyDelay,
       server_reply endpoint options w = Responds delay 401 payload bodyDelay
       ∧ (delay < 5000)%N
       ∧ r = Rejected (mkError "Error" "Authentication required")).
Proof.
  intros Heq.
  destruct (apiRequest_frame _ _ _ _ _ Heq)
    as [(Hls & Hloc & Hauth & Htodo & _)|(delay & payload & bodyDelay & Hreply & Hlt & -> & ->)].
  - rewrite Hls, Hloc. repeat split; [done..|]. by intros [?|?].
  - split; [|split; [done|split; [done|]]].
    + simpl. etrans; apply delete_subseteq.
    + intros _. by exists delay, payload, bodyDelay.
Qed.

(** X7: when the remote end is too slow (no answer, a status line at or
    after 5000 ms, or, for a status other than 401, a body not complete
    before 5000 ms) the call rejects with the timeout error exactly
    5000 ms after it was made, and has done nothing but read the token
    and send the request. *)
Theorem apiRequest_times_out endpoint options w :
  times_out (server_reply endpoint options w) →
  apiRequest endpoint options w
  = Some (Rejected TimeoutError,
          set_clock (clock w + 5000) (request_sent endpoint options w)).
Proof.
  intros Hslow. rewrite apiRequest_cases. simpl.
  destruct (server_reply endpoint options w) as [delay code payload bodyDelay|delay|];
    simpl in Hslow; rewrite ?ltb_plus_l.
  - destruct (N.ltb_spec delay 5000) as [Hlt|Hge].
    + destruct Hslow as [?|[Hcode Hbody]]; [lia|].
      destruct (decide (code = 401%Z)); [done|].
      unfold response_json. simpl.
      assert ((N.max (clock w + delay) (clock w + delay + bodyDelay) <? clock w + 5000)%N
              = false) as -> by (apply N.ltb_ge; lia).
      unfold aborted, set_clock. simpl. do 3 f_equal. lia.
    + unfold aborted, set_clock. simpl. do 3 f_equal. lia.
  - apply N.ltb_ge in Hslow. rewrite Hslow.
    unfold aborted, set_clock. simpl. do 3 f_equal. lia.
  - unfold aborted, set_clock. simpl. do 3 f_equal. lia.
Qed.

(** X8: once a call has been answered 401, the next call through the
    client, whatever its endpoint, is sent without a bearer header
    (unless its caller supplies an [Authorization] header itself). *)
Theorem apiRequest_after_unauthorized endpoint options w delay payload bodyDelay r w'
  endpoint2 options2 :
  server_reply endpoint options w = Responds delay 401 payload bodyDelay →
  (delay < 5000)%N →
  apiRequest endpoint options w = Some (r, w') →
  headers options2 !! "Authorization" = None →
  ∃ r2 w2 init rest,
    apiRequest endpoint2 options2 w' = Some (r2, w2)
    ∧ trace w2 = (trace w' ++ EvGetItem "auth_token"
                    :: EvFetch (API_BASE_URL +:+ endpoint2) init :: rest)%list
    ∧ count_events is_fetch rest = 0
    ∧ headers init !! "Authorization" = None.
Proof.
  intros Hreply Hdelay Heq Hcaller.
  assert (Htok : localStorage w' !! "auth_token" = None).
  { rewrite apiRequest_cases, Hreply in Heq. simpl in Heq.
    rewrite ltb_plus_l in Heq. apply N.ltb_lt in Hdelay. rewrite Hdelay in Heq.
    injection Heq as _ <-. simpl.
    rewrite lookup_delete_ne by done. apply lookup_delete_eq. }
  destruct (apiRequest_settles endpoint2 options2 w') as (r2 & w2 & rest & Heq2 & _ & Htrace & Hrest).
  exists r2, w2, (request_init options2 (localStorage w' !! "auth_token")), rest.
  split; [done|]. split; [rewrite Htrace; simpl; by rewrite <- !app_assoc|].
  split; [done|]. by rewrite request_init_authorization, Hcaller, Htok.
Qed.

(** ** Further properties of the home page *)

Lemma last_loaded_cons a rest :
  last_loaded (a :: rest)
  = match last_loaded rest with
    | Some b => Some b
    | None => if loading a then None else Some a
    end.
Proof.
  unfold last_loaded. simpl. destruct (loading a); simpl.
  - by destruct (last _).
  - apply last_cons.
Qed.

(** A run of renders from a state in which the location agrees with the
    dependencies of the previous render. *)
Lemma HomePage_renders_inv (snapshots : list AuthState) :
  ∀ (prev : option (bool * bool)) (w : World),
  (∀ b, prev = Some (b, false) → location w = if b then "/todos" else "/login") →
  ∃ w' dests,
    HomePage_renders prev snapshots w = Some (Fulfilled (), w')
    ∧ location w' = match last_loaded snapshots with
                    | Some a => destination a
                    | None => location w
                    end
    ∧ localStorage w' = localStorage w
    ∧ auth w' = auth w
    ∧ todo w' = todo w
    ∧ clock w' = clock w
    ∧ trace w' = (trace w ++ (EvRouterPush <$> dests))%list
    ∧ Forall (λ d, d = "/todos" ∨ d = "/login") dests
    ∧ (length dests ≤ length (List.filter (λ a, negb (loading a)) snapshots))%nat.
Proof.
  induction snapshots as [|a rest IH]; intros prev w Hinv.
  - exists w, []. simpl. rewrite app_nil_r. repeat split; [done..|constructor|lia].
  - simpl. unfold mbind, async_bind, await. rewrite last_loaded_cons.
    destruct (decide (prev = Some (HomePage_deps a))) as [Hprev|Hprev]; simpl.
    + destruct (IH (Some (HomePage_deps a)) w) as (w' & dests & Heq & Hloc & Hrest).
      { by rewrite <- Hprev. }
      exists w', dests. split; [done|]. split.
      * rewrite Hloc. destruct (last_loaded rest); [done|].
        destruct (loading a) eqn:Hl; [done|].
        unfold destination. apply Hinv. rewrite Hprev. unfold HomePage_deps. by rewrite Hl.
      * destruct Hrest as (? & ? & ? & ? & ? & ? & ?).
        repeat split; [done..|]. destruct (loading a); simpl; lia.
    + unfold HomePage_effect. destruct (loading a) eqn:Hl; simpl.
      * destruct (IH (Some (HomePage_deps a)) w) as (w' & dests & Heq & Hloc & Hrest).
        { intros b [= _ Hb]. congruence. }
        exists w', dests. split; [done|]. split; [|done].
        rewrite Hloc. by destruct (last_loaded rest).
      * destruct (IH (Some (HomePage_deps a))
                     (emit (EvRouterPush (destination a)) (set_location (destination a) w)))
          as (w' & dests & Heq & Hloc & Hls & Hauth & Htodo & Hclock & Htrace & Hall & Hlen).
        { intros b [= Hb _]. simpl. unfold destination. by rewrite Hb. }
        exists w', (destination a :: dests).
        split. { unfold destination in *. by destruct (isAuthenticated a). }
        split. { rewrite Hloc. by destruct (last_loaded rest). }
        repeat split; [done..| | |].
        -- rewrite Htrace. simpl. by rewrite <- app_assoc.
        -- constructor; [|done]. unfold destination. destruct (isAuthenticated a); auto.
        -- simpl. lia.
Qed.

(** X9: a visit to the home page always completes, and afterwards the
    location is the destination for the most recent render in which the
    hook had finished loading (/todos if it was authenticated, /login if
    not); if every render was still loading the location is unchanged. *)
Theorem HomePage_visit_location snapshots w :
  ∃ w',
    HomePage_visit snapshots w = Some (Fulfilled (), w')
    ∧ location w' = match last_loaded snapshots with
                    | Some a => if isAuthenticated a then "/todos" else "/login"
                    | None => location w
                    end.
Proof.
  destruct (HomePage_renders_inv snapshots None w) as (w' & dests & Heq & Hloc & _); [done|].
  exists w'. split; [done|]. rewrite Hloc. by destruct (last_loaded snapshots).
Qed.

(** X10: over a whole visit the home page does nothing but push routes:
    every event it adds is a push to /todos or to /login, there are no
    more pushes than renders with loading finished, and local storage,
    hook state and clock are untouched. *)
Theorem HomePage_visit_only_redirects snapshots w :
  ∃ w' dests,
    HomePage_visit snapshots w = Some (Fulfilled (), w')
    ∧ trace w' = (trace w ++ (EvRouterPush <$> dests))%list
    ∧ Forall (λ d, d = "/todos" ∨ d = "/login") dests
    ∧ (length dests ≤ length (List.filter (λ a, negb (loading a)) snapshots))%nat
    ∧ localStorage w' = localStorage w
    ∧ auth w' = auth w
    ∧ todo w' = todo w
    ∧ clock w' = clock w.
Proof.
  destruct (HomePage_renders_inv snapshots None w)
    as (w' & dests & Heq & _ & Hls & Hauth & Htodo & Hclock & Htrace & Hall & Hlen); [done|].
  by exists w', dests.
Qed.

(** ** The header *)

(** X12: the header always starts with the title link to /todos; the
    logout button is offered exactly when the hook reports an
    authenticated state and holds a user object, and the theme toggle
    and the user's name appear exactly together with it; so an
    authenticated state without a user object, like an unauthenticated
    one with a stale user object, offers no way to log out. *)
Theorem Header_user_block a :
  (∃ block, Header a = TitleLink "Todo App" "/todos" :: block)
  ∧ (LogoutButton ∈ Header a ↔ isAuthenticated a = true ∧ is_Some (user a))
  ∧ (ThemeToggleEl ∈ Header a ↔ LogoutButton ∈ Header a)
  ∧ (∀ name, UserInfo "Logged in as" name ∈ Header a
             ↔ isAuthenticated a = true ∧ username <$> user a = Some name).
Proof.
  unfold Header. split; [eauto|].
  destruct (isAuthenticated a), (user a) as [u|]; simpl;
    (split; [|split; [|intros name]]);
    rewrite ?elem_of_cons, ?elem_of_nil, ?is_Some_alt;
    intuition (try discriminate; try congruence; auto).
Qed.

End Client.

(** * The properties on sample runs *)

Lemma apiRequest_unauthorized_witness :
  server_reply sample_base (always (Responds 10 401 None 0)) "/api/tasks/" no_options signed_in
    = Responds 10 401 None 0
  ∧ (10 < 5000)%N
  ∧ ∃ w',
      apiRequest sample_base (always (Responds 10 401 None 0)) "/api/tasks/" no_options signed_in
        = Some (Rejected (mkError "Error" "Authentication required"), w')
      ∧ localStorage w' !! "auth_token" = None
      ∧ location w' = "/login"
      ∧ count_events (is_remove "auth_token") (trace w') = 1
      ∧ count_events is_fetch (trace w') = 1.
Proof.
  split; [reflexivity|]. split; [reflexivity|].
  destruct (apiRequest_unauthorized sample_base (always (Responds 10 401 None 0))
              "/api/tasks/" no_options signed_in 10 None 0 eq_refl eq_refl)
    as (w' & Heq & _ & Htok & Hloc & _ & Hrm & Hfetch).
  exists w'. repeat split; assumption.
Defined.

Lemma apiRequest_network_failure_witness :
  no_response (server_reply sample_base (always (Unreachable 3)) "/api/tasks/" no_options signed_in)
  ∧ ∃ e w',
      apiRequest sample_base (always (Unreachable 3)) "/api/tasks/" no_options signed_in
        = Some (Rejected e, w')
      ∧ localStorage w' = localStorage signed_in
      ∧ auth w' = auth signed_in
      ∧ location w' = "/todos".
Proof.
  split; [exact I|].
  destruct (apiRequest_network_failure sample_base (always (Unreachable 3))
              "/api/tasks/" no_options signed_in I)
    as (e & w' & Heq & _ & Hls & Hauth & _ & Hloc & _).
  exists e, w'. repeat split; assumption.
Defined.

(** C4 as stated fails: a 500 answer with a JSON body is handed to the
    caller as the fulfilled result of the call. *)
Lemma apiRequest_error_status_fulfilled :
  server_reply sample_base (always (Responds 10 500 (Some error_body) 5))
               "/api/tasks/" no_options signed_in
    = Responds 10 500 (Some error_body) 5
  ∧ apiRequest sample_base (always (Responds 10 500 (Some error_body) 5))
               "/api/tasks/" no_options signed_in
    = Some (Fulfilled error_body,
            set_clock 115 (request_sent sample_base "/api/tasks/" no_options signed_in)).
Proof. split; reflexivity. Qed.

Lemma apiRequest_other_status_witness :
  server_reply sample_base (always (Responds 10 404 None 5)) "/api/tasks/" no_options signed_in
    = Responds 10 404 None 5
  ∧ 404%Z ≠ 401%Z
  ∧ (10 + 5 < 5000)%N
  ∧ ∃ w',
      apiRequest sample_base (always (Responds 10 404 None 5)) "/api/tasks/" no_options signed_in
        = Some (Rejected SyntaxError, w')
      ∧ localStorage w' = localStorage signed_in.
Proof.
  assert (Hcode : 404%Z ≠ 401%Z) by discriminate.
  split; [reflexivity|]. split; [exact Hcode|]. split; [reflexivity|].
  destruct (apiRequest_other_status sample_base (always (Responds 10 404 None 5))
              "/api/tasks/" no_options signed_in 10 404 None 5 eq_refl Hcode eq_refl)
    as (w' & Heq & Hls & _).
  exists w'. split; assumption.
Defined.

(** C5 as stated fails: with the token "abc" in storage, a caller that
    passes its own [Authorization] entry has that entry sent, not the
    bearer header; and an empty stored token sends no header at all. *)
Lemma apiRequest_authorization_overridden :
  (let options := mkInit None {[ "Authorization" := "Basic dXNlcjpwdw==" ]} None None in
   localStorage signed_in !! "auth_token" = Some "abc"
   ∧ ∃ r w' init,
       apiRequest sample_base (always (Responds 10 200 (Some JNull) 5))
                  "/api/tasks/" options signed_in = Some (r, w')
       ∧ trace w' = [EvGetItem "auth_token"; EvFetch "http://localhost:8001/api/tasks/" init]
       ∧ headers init !! "Authorization" = Some "Basic dXNlcjpwdw=="
       ∧ headers init !! "Authorization" ≠ Some "Bearer abc")
  ∧ (let w := set_localStorage {[ "auth_token" := "" ]} signed_in in
     localStorage w !! "auth_token" = Some ""
     ∧ ∃ r w' init,
         apiRequest sample_base (always (Responds 10 200 (Some JNull) 5))
                    "/api/tasks/" no_options w = Some (r, w')
         ∧ trace w' = [EvGetItem "auth_token"; EvFetch "http://localhost:8001/api/tasks/" init]
         ∧ headers init !! "Authorization" = None).
Proof.
  split.
  - split; [reflexivity|].
    eexists _, _, _. split; [reflexivity|]. split; [reflexivity|].
    split; [reflexivity|discriminate].
  - split; [reflexivity|].
    eexists _, _, _. split; [reflexivity|]. split; reflexivity.
Qed.

Lemma apiRequest_authorization_witness :
  headers no_options !! "Authorization" = None
  ∧ ∃ r w' init rest,
      apiRequest sample_base (always (Responds 10 200 (Some JNull) 5))
                 "/api/tasks/" no_options signed_in = Some (r, w')
      ∧ trace w' = EvGetItem "auth_token"
                     :: EvFetch "http://localhost:8001/api/tasks/" init :: rest
      ∧ headers init !! "Authorization" = Some "Bearer abc".
Proof.
  split; [reflexivity|].
  destruct (apiRequest_authorization sample_base (always (Responds 10 200 (Some JNull) 5))
              "/api/tasks/" no_options signed_in eq_refl)
    as (r & w' & init & rest & Heq & Htrace & _ & Hsome & _).
  exists r, w', init, rest. split; [exact Heq|]. split; [exact Htrace|].
  apply (Hsome "abc"); [reflexivity|discriminate].
Defined.

Lemma restore_state_witness :
  (localStorage signed_out !! "auth_token" = None
   ∧ ∃ w', restore signed_out = Some (Fulfilled (), w') ∧ auth w' = unauthenticated)
  ∧ (is_Some (localStorage signed_in !! "auth_token")
     ∧ ∃ w', restore signed_in = Some (Fulfilled (), w')
             ∧ isAuthenticated (auth w') = true
             ∧ count_events is_fetch (trace w') = 0).
Proof.
  split.
  - split; [reflexivity|].
    destruct (restore_state signed_out) as (w' & Heq & Hnone & _).
    exists w'. split; [exact Heq|]. apply Hnone. reflexivity.
  - assert (Htok : is_Some (localStorage signed_in !! "auth_token")) by (exists "abc"; reflexivity).
    split; [exact Htok|].
    destruct (restore_state signed_in) as (w' & Heq & _ & Hsome & Hfetch & _).
    exists w'. split; [exact Heq|]. split; [apply (Hsome Htok)|exact Hfetch].
Defined.



Lemma HomePage_redirect_witness :
  HomePage_effect (mkAuth None false true) signed_out = Some (Fulfilled (), signed_out)
  ∧ HomePage_effect (mkAuth (Some sample_user) true false) signed_out
    = Some (Fulfilled (), emit (EvRouterPush "/todos") (set_location "/todos" signed_out))
  ∧ HomePage_visit [mkAuth None false true; mkAuth None false true;
                    mkAuth None false false; mkAuth None false false] signed_out
    = Some (Fulfilled (), emit (EvRouterPush "/login") (set_location "/login" signed_out)).
Proof.
  split; [|split].
  - apply (HomePage_redirect (mkAuth None false true) signed_out). reflexivity.
  - apply (HomePage_redirect (mkAuth (Some sample_user) true false) signed_out). reflexivity.
  - apply (proj2 (proj2 (HomePage_redirect (mkAuth None false false) signed_out))
             [mkAuth None false true; mkAuth None false true] 1).
    + repeat constructor.
    + reflexivity.
Defined.

(** Logging out against a server that never answers: the notification is
    given up after 5000 ms and the session is cleared all the same. *)
Example handleLogout_server_silent :
  ∃ w',
    handleLogout (logout sample_base (always Hangs)) signed_in = Some (Fulfilled (), w')
    ∧ clock w' = 5100%N
    ∧ localStorage w' = ∅
    ∧ auth w' = unauthenticated
    ∧ location w' = "/login"
    ∧ count_events is_navigation (trace w') = 1.
Proof. eexists. repeat split; reflexivity. Qed.

(** Logging out with a token the server no longer accepts. *)
Example handleLogout_server_rejects :
  ∃ w',
    handleLogout (logout sample_base (always (Responds 20 401 None 0))) signed_in
      = Some (Fulfilled (), w')
    ∧ localStorage w' = ∅
    ∧ auth w' = unauthenticated
    ∧ location w' = "/login".
Proof. eexists. repeat split; reflexivity. Qed.

(** A caller-supplied signal that would abort after 1 ms has no effect on
    a request answered after 10 ms. *)
Example apiRequest_ignores_caller_signal :
  apiRequest sample_base (always (Responds 10 200 (Some JNull) 5)) "/api/tasks/"
             (with_signal (Some (ControllerSignal (Some 1%N))) no_options) signed_in
  = Some (Fulfilled JNull,
          set_clock 115 (request_sent sample_base "/api/tasks/" no_options signed_in)).
Proof. reflexivity. Qed.

Example toggle_sample_task :
  ∃ w1 w2,
    handleToggleTask toggleTask "t1" signed_in = Some (Fulfilled (), w1)
    ∧ completed <$> tasks (todo w1) = [true]
    ∧ handleToggleTask toggleTask "t1" w1 = Some (Fulfilled (), w2)
    ∧ w2 = signed_in.
Proof. eexists _, _. repeat split; reflexivity. Qed.

(** * The further properties on sample runs *)

Lemma handleLogout_trace_witness :
  throw NetworkError signed_in = Some (@Rejected unit NetworkError, signed_in)
  ∧ ∃ w',
      handleLogout (throw NetworkError) signed_in = Some (Fulfilled (), w')
      ∧ trace w' = [EvConsoleError "Logout error:" NetworkError; EvRouterPush "/login"].
Proof.
  split; [reflexivity|].
  exact (handleLogout_trace (throw NetworkError) signed_in (Rejected NetworkError)
           signed_in eq_refl).
Defined.

Lemma apiRequest_caller_options_witness :
  (let o := mkOptions (Some "POST") (HeadersRecord {[ "content-type" := "text/plain" ]})
                      (Some "hello") None in
   ∃ r w' init rest,
     apiRequest sample_base (always Hangs) "/api/tasks/" (init_of o) signed_in = Some (r, w')
     ∧ trace w' = EvGetItem "auth_token"
                    :: EvFetch "http://localhost:8001/api/tasks/" init :: rest
     ∧ method init = Some "POST"
     ∧ body init = Some "hello"
     ∧ headers init !! "content-type" = Some "text/plain"
     ∧ headers init !! "Content-Type" = Some "application/json")
  ∧ (let o := mkOptions None (HeadersObject [("Authorization", "Basic dXNlcjpwdw==")])
                        None None in
     ∃ r w' init rest,
       apiRequest sample_base (always Hangs) "/api/tasks/" (init_of o) signed_in = Some (r, w')
       ∧ trace w' = EvGetItem "auth_token"
                      :: EvFetch "http://localhost:8001/api/tasks/" init :: rest
       ∧ headers init = {[ "Authorization" := "Bearer abc";
                           "Content-Type" := "application/json" ]})
  ∧ (let o := mkOptions None (HeadersPairs [("X-Trace", "7")]) None None in
     ∃ r w' init rest,
       apiRequest sample_base (always Hangs) "/api/tasks/" (init_of o) signed_in = Some (r, w')
       ∧ trace w' = EvGetItem "auth_token"
                      :: EvFetch "http://localhost:8001/api/tasks/" init :: rest
       ∧ headers init !! "0" = Some "X-Trace,7").
Proof.
  split; [|split].
  - destruct (apiRequest_caller_options sample_base (always Hangs) "/api/tasks/"
                (mkOptions (Some "POST") (HeadersRecord {[ "content-type" := "text/plain" ]})
                           (Some "hello") None) signed_in)
      as (r & w' & init & rest & Heq & Htrace & Hm & Hb & Hrecord & _).
    destruct (Hrecord _ eq_refl) as (Hkeep & Hdefault & _).
    exists r, w', init, rest. split; [exact Heq|]. split; [exact Htrace|].
    split; [exact Hm|]. split; [exact Hb|].
    split; [apply Hkeep; reflexivity|apply Hdefault; reflexivity].
  - destruct (apiRequest_caller_options sample_base (always Hangs) "/api/tasks/"
                (mkOptions None (HeadersObject [("Authorization", "Basic dXNlcjpwdw==")])
                           None None) signed_in)
      as (r & w' & init & rest & Heq & Htrace & _ & _ & _ & Hdropped & _).
    exists r, w', init, rest. split; [exact Heq|]. split; [exact Htrace|].
    rewrite Hdropped; [reflexivity|]. right. eexists. reflexivity.
  - destruct (apiRequest_caller_options sample_base (always Hangs) "/api/tasks/"
                (mkOptions None (HeadersPairs [("X-Trace", "7")]) None None) signed_in)
      as (r & w' & init & rest & Heq & Htrace & _ & _ & _ & _ & Hpairs).
    destruct (Hpairs _ eq_refl) as (Hindex & _).
    exists r, w', init, rest. split; [exact Heq|]. split; [exact Htrace|].
    exact (Hindex 0 ("X-Trace", "7") eq_refl).
Defined.

Lemma apiRequest_unauthorized_frame_witness :
  (let w := set_localStorage {[ "auth_token" := "abc"; "theme" := "dark" ]} signed_in in
   server_reply sample_base (always (Responds 10 401 None 7000)) "/api/tasks/" no_options w
     = Responds 10 401 None 7000
   ∧ (10 < 5000)%N
   ∧ ∃ w',
       apiRequest sample_base (always (Responds 10 401 None 7000)) "/api/tasks/" no_options w
         = Some (Rejected (mkError "Error" "Authentication required"), w')
       ∧ clock w' = 110%N
       ∧ localStorage w' !! "auth_token" = None
       ∧ localStorage w' !! "theme" = Some "dark"
       ∧ auth w' = auth signed_in)
  ∧ (localStorage signed_out !! "auth_token" = None
     ∧ localStorage signed_out !! "user" = None
     ∧ ∃ w',
         apiRequest sample_base (always (Responds 10 401 None 0)) "/api/tasks/"
                    no_options signed_out
           = Some (Rejected (mkError "Error" "Authentication required"), w')
         ∧ localStorage w' = localStorage signed_out).
Proof.
  split.
  - split; [reflexivity|]. split; [reflexivity|].
    destruct (apiRequest_unauthorized_frame sample_base (always (Responds 10 401 None 7000))
                "/api/tasks/" no_options
                (set_localStorage {[ "auth_token" := "abc"; "theme" := "dark" ]} signed_in)
                10 None 7000 eq_refl eq_refl)
      as (w' & Heq & Hclock & _ & Htok & _ & Hkeep & Hauth & _).
    exists w'. split; [exact Heq|]. split; [exact Hclock|]. split; [exact Htok|].
    split; [|exact Hauth].
    rewrite (Hkeep "theme"); [reflexivity|discriminate|discriminate].
  - split; [reflexivity|]. split; [reflexivity|].
    destruct (apiRequest_unauthorized_frame sample_base (always (Responds 10 401 None 0))
                "/api/tasks/" no_options signed_out 10 None 0 eq_refl eq_refl)
      as (w' & Heq & _ & _ & _ & _ & _ & _ & _ & Hsame).
    exists w'. split; [exact Heq|]. apply Hsame; reflexivity.
Defined.

Lemma apiRequest_clears_only_on_401_witness :
  apiRequest sample_base (always (Responds 10 401 None 0)) "/api/tasks/" no_options signed_in
    = Some (Rejected (mkError "Error" "Authentication required"),
            session_cleared sample_base "/api/tasks/" no_options 10 signed_in)
  ∧ location (session_cleared sample_base "/api/tasks/" no_options 10 signed_in)
      ≠ location signed_in
  ∧ localStorage (session_cleared sample_base "/api/tasks/" no_options 10 signed_in)
      ⊆ localStorage signed_in
  ∧ ∃ delay payload bodyDelay,
      server_reply sample_base (always (Responds 10 401 None 0)) "/api/tasks/" no_options
                   signed_in = Responds delay 401 payload bodyDelay
      ∧ (delay < 5000)%N.
Proof.
  assert (Hloc : location (session_cleared sample_base "/api/tasks/" no_options 10 signed_in)
                 ≠ location signed_in) by discriminate.
  split; [reflexivity|]. split; [exact Hloc|].
  destruct (apiRequest_clears_only_on_401 sample_base (always (Responds 10 401 None 0))
              "/api/tasks/" no_options signed_in _ _ eq_refl)
    as (Hsub & _ & _ & Honly).
  split; [exact Hsub|].
  destruct (Honly (or_intror Hloc)) as (delay & payload & bodyDelay & Hreply & Hlt & _).
  exists delay, payload, bodyDelay. split; assumption.
Defined.

Lemma apiRequest_times_out_witness :
  times_out (server_reply sample_base (always (Responds 10 200 (Some JNull) 6000))
                          "/api/tasks/" no_options signed_in)
  ∧ apiRequest sample_base (always (Responds 10 200 (Some JNull) 6000))
               "/api/tasks/" no_options signed_in
    = Some (Rejected TimeoutError,
            set_clock 5100 (request_sent sample_base "/api/tasks/" no_options signed_in)).
Proof.
  assert (Hslow : times_out (server_reply sample_base (always (Responds 10 200 (Some JNull) 6000))
                                          "/api/tasks/" no_options signed_in)).
  { right. split; [discriminate|]. intros Hcmp. discriminate Hcmp. }
  split; [exact Hslow|].
  exact (apiRequest_times_out sample_base (always (Responds 10 200 (Some JNull) 6000))
           "/api/tasks/" no_options signed_in Hslow).
Defined.

Lemma apiRequest_after_unauthorized_witness :
  server_reply sample_base (always (Responds 10 401 None 0)) "/api/tasks/" no_options signed_in
    = Responds 10 401 None 0
  ∧ (10 < 5000)%N
  ∧ headers no_options !! "Authorization" = None
  ∧ ∃ r2 w2 init rest,
      apiRequest sample_base (always (Responds 10 401 None 0)) "/api/auth/me" no_options
                 (session_cleared sample_base "/api/tasks/" no_options 10 signed_in)
        = Some (r2, w2)
      ∧ headers init !! "Authorization" = None
      ∧ trace w2 = (trace (session_cleared sample_base "/api/tasks/" no_options 10 signed_in)
                    ++ EvGetItem "auth_token"
                    :: EvFetch "http://localhost:8001/api/auth/me" init :: rest)%list.
Proof.
  split; [reflexivity|]. split; [reflexivity|]. split; [reflexivity|].
  destruct (apiRequest_after_unauthorized sample_base (always (Responds 10 401 None 0))
              "/api/tasks/" no_options signed_in 10 None 0 _ _ "/api/auth/me" no_options
              eq_refl eq_refl eq_refl eq_refl)
    as (r2 & w2 & init & rest & Heq & Htrace & _ & Hnone).
  exists r2, w2, init, rest. split; [exact Heq|]. split; [exact Hnone|exact Htrace].
Defined.

(** A visit in which the hook first reports no session and then one. *)
Example HomePage_visit_two_pushes :
  ∃ w',
    HomePage_visit [mkAuth None false true; mkAuth None false false;
                    mkAuth (Some sample_user) true false] signed_out
      = Some (Fulfilled (), w')
    ∧ trace w' = [EvRouterPush "/login"; EvRouterPush "/todos"]
    ∧ location w' = "/todos".
Proof. eexists. repeat split; reflexivity. Qed.

Lemma Header_user_block_witness :
  (LogoutButton ∈ Header (mkAuth (Some sample_user) true false))
  ∧ (UserInfo "Logged in as" "ada" ∈ Header (mkAuth (Some sample_user) true false))
  ∧ (LogoutButton ∉ Header (mkAuth None true false))
  ∧ (LogoutButton ∉ Header (mkAuth (Some sample_user) false false)).
Proof.
  destruct (Header_user_block (mkAuth (Some sample_user) true false))
    as (_ & Hlogout & _ & Hname).
  destruct (Header_user_block (mkAuth None true false)) as (_ & Hnouser & _).
  destruct (Header_user_block (mkAuth (Some sample_user) false false)) as (_ & Hstale & _).
  split; [|split; [|split]].
  - apply Hlogout. split; [reflexivity|]. exists sample_user. reflexivity.
  - apply Hname. split; reflexivity.
  - intros Hin. apply Hnouser in Hin. destruct Hin as [_ [u Hu]]. discriminate Hu.
  - intros Hin. apply Hstale in Hin. destruct Hin as [Hauth _]. discriminate Hauth.
Defined.
